(** * bgpinfo: the single-shot gRPC time reporter, embedded and verified

    The client is one Python module, [client/bgpinfo.py].  Its statements run
    top to bottom: the configuration is loaded, a channel and a stub are
    created, and, when the module runs as the main program, one request is
    built from the clock, sent, and the answer printed.

    The embedding is shallow.  Library calls the module makes
    ([configparser], [%] formatting, [int], [time.time], [grpc], [print]) are
    functions of this file; what the outside world decides (the file system,
    the clock, the transport, the remote service, the name the module runs
    under) is a record of oracles, [world].  The module body is a program in
    a small state-and-exception monad whose state is the interpreter's
    observable footprint: the line being executed, the chronological trace of
    library calls and the text on standard output.

    Strings are byte strings; letters outside ASCII are left alone by
    [lower]. *)

From stdpp Require Import base gmap strings list fin_maps numbers.
From Stdlib Require Import Ascii String ZArith QArith Qround Qpower SpecFloat Lia.

Open Scope Z_scope.

(** ** Python exceptions and results *)

(** The exceptions the module can meet, with the arguments Python gives them.
    The first group is [configparser.Error] and its subclasses. *)
Inductive exn : Type :=
| NoSectionError (section : string)
| NoOptionError (option section : string)
| DuplicateSectionError (section source : string)
| DuplicateOptionError (section option source : string)
| MissingSectionHeaderError (source : string)
| ParsingError (source : string)
| InterpolationDepthError (option section rawval : string)
| InterpolationMissingOptionError (option section rawval reference : string)
| InterpolationSyntaxError (option section : string)
| UnicodeDecodeError
| TypeError (msg : string)
| ValueError (msg : string)
| OverflowError (msg : string)
| InsecureChannelError (details : string)
| RpcError (code : Z) (details : string).

(** The three error kinds of the specification's taxonomy. *)
Inductive error_kind : Type :=
| ConfigurationError
| ChannelError
| RpcFailure
| OtherError.

Definition kind_of (e : exn) : error_kind :=
  match e with
  | NoSectionError _ | NoOptionError _ _
  | DuplicateSectionError _ _ | DuplicateOptionError _ _ _
  | MissingSectionHeaderError _ | ParsingError _
  | InterpolationDepthError _ _ _ | InterpolationMissingOptionError _ _ _ _
  | InterpolationSyntaxError _ _ | UnicodeDecodeError => ConfigurationError
  | InsecureChannelError _ => ChannelError
  | RpcError _ _ => RpcFailure
  | TypeError _ | ValueError _ | OverflowError _ => OtherError
  end.

Inductive result (A : Type) : Type :=
| Ok (a : A)
| Raise (e : exn).
Arguments Ok {A} a.
Arguments Raise {A} e.

Definition rbind {A B} (r : result A) (k : A -> result B) : result B :=
  match r with
  | Ok a => k a
  | Raise e => Raise e
  end.

Definition rmap {A B} (f : A -> B) (r : result A) : result B :=
  rbind r (fun a => Ok (f a)).

(** ** Built-ins: [str], [%], [int] *)

(** [str(x)] for [x] already a [str]. *)
Definition py_str (s : string) : string := s.

Definition is_percent (c : ascii) : bool := Ascii.eqb c "%"%char.

(** [fmt % args] for the conversions the module uses: [%s] takes the next
    argument, [%%] is a literal percent sign, any other text is copied.
    Too few or too many arguments are a [TypeError], as in Python. *)
Fixpoint py_format (fmt : string) (args : list string) : result string :=
  match fmt with
  | EmptyString =>
      match args with
      | [] => Ok EmptyString
      | _ :: _ =>
          Raise (TypeError "not all arguments converted during string formatting")
      end
  | String c rest =>
      if is_percent c then
        match rest with
        | EmptyString => Raise (ValueError "incomplete format")
        | String d rest' =>
            if Ascii.eqb d "s"%char then
              match args with
              | [] => Raise (TypeError "not enough arguments for format string")
              | a :: args' => rmap (String.append (py_str a)) (py_format rest' args')
              end
            else if is_percent d then rmap (String d) (py_format rest' args)
            else Raise (ValueError "unsupported format character")
        end
      else rmap (String c) (py_format rest args)
  end.

(** A Python [float] is an IEEE 754 binary64 value; [spec_float] lists its
    shapes.  A finite one is [(-1)^s * m * 2^e]. *)

(** [int(x)]: the integral part of [x], rounding toward zero; infinities and
    NaN have no integer. *)
Definition py_int (x : spec_float) : result Z :=
  match x with
  | S754_zero _ => Ok 0
  | S754_finite s m e => Ok (cond_Zopp s (Z.shiftl (Z.pos m) e))
  | S754_infinity _ => Raise (OverflowError "cannot convert float infinity to integer")
  | S754_nan => Raise (ValueError "cannot convert float NaN to integer")
  end.

(** The rational a float stands for (0 for the shapes that stand for none). *)
Definition float_value (x : spec_float) : Q :=
  match x with
  | S754_finite s m e =>
      let mag := (inject_Z (Z.pos m) * Qpower 2 e)%Q in
      if s then (- mag)%Q else mag
  | _ => 0%Q
  end.

Definition is_finite (x : spec_float) : bool :=
  match x with
  | S754_zero _ | S754_finite _ _ _ => true
  | S754_infinity _ | S754_nan => false
  end.

(** ** The [configparser] module, as far as the client uses it *)

Module configparser.

Definition MAX_INTERPOLATION_DEPTH : nat := 10.
Definition DEFAULTSECT : string := "DEFAULT".

(** The parser object: [_sections] maps a section name to its options,
    [_defaults] holds the options of the [DEFAULT] section. *)
Record ConfigParser : Type := mkConfigParser {
  _sections : gmap string (gmap string string);
  _defaults : gmap string string
}.

(** [ConfigParser()] *)
Definition new : ConfigParser :=
  {| _sections := ∅; _defaults := ∅ |}.

(** What [open] and the line parser make of a file on disk.  [read] hands
    a file that opens to the parser, which either raises or yields the
    sections it found. *)
Inductive read_error : Type :=
| BadSectionHeader
| BadLine
| RepeatedSection (section : string)
| RepeatedOption (section option : string)
| BadEncoding.

Inductive file_state : Type :=
| NoSuchFile
| NotReadable
| Malformed (e : read_error)
| Parsed (sections : gmap string (gmap string string))
         (defaults : gmap string string).

Definition exn_of_read_error (source : string) (e : read_error) : exn :=
  match e with
  | BadSectionHeader => MissingSectionHeaderError source
  | BadLine => ParsingError source
  | RepeatedSection s => DuplicateSectionError s source
  | RepeatedOption s o => DuplicateOptionError s o source
  | BadEncoding => UnicodeDecodeError
  end.

(** [parser.read(filename)]: a file that cannot be opened ([OSError]) is
    skipped without a word; a file that opens is parsed into the object,
    new options overriding old ones section by section.  Returns the
    updated object and the list of files read. *)
Definition read (parser : ConfigParser) (filename : string)
    (file : file_state) : result (ConfigParser * list string) :=
  match file with
  | NoSuchFile | NotReadable => Ok (parser, [])
  | Malformed e => Raise (exn_of_read_error filename e)
  | Parsed sections defaults =>
      Ok ({| _sections :=
               union_with (fun new old => Some (new ∪ old))
                          sections (_sections parser);
             _defaults := defaults ∪ _defaults parser |},
          [filename])
  end.

Definition ascii_lower (c : ascii) : ascii :=
  let n := nat_of_ascii c in
  if (65 <=? n)%nat && (n <=? 90)%nat then ascii_of_nat (n + 32) else c.

Fixpoint lower (s : string) : string :=
  match s with
  | EmptyString => EmptyString
  | String c s' => String (ascii_lower c) (lower s')
  end.

(** [optionxform]: option names are compared in lower case. *)
Definition optionxform (optionstr : string) : string := lower optionstr.

(** [_unify_values]: the options visible in a section are its own, then the
    defaults. *)
Definition _unify_values (parser : ConfigParser) (section : string)
    : result (gmap string string) :=
  match _sections parser !! section with
  | Some sectiondict => Ok (sectiondict ∪ _defaults parser)
  | None =>
      if String.eqb section DEFAULTSECT then Ok (_defaults parser)
      else Raise (NoSectionError section)
  end.

(** [has_option] *)
Definition has_option (parser : ConfigParser) (section option : string)
    : bool :=
  if String.eqb section "" || String.eqb section DEFAULTSECT then
    bool_decide (is_Some (_defaults parser !! optionxform option))
  else
    match _sections parser !! section with
    | None => false
    | Some sectiondict =>
        bool_decide (is_Some (sectiondict !! optionxform option))
        || bool_decide (is_Some (_defaults parser !! optionxform option))
    end.

Fixpoint contains_percent (s : string) : bool :=
  match s with
  | EmptyString => false
  | String c s' => is_percent c || contains_percent s'
  end.

(** Where [BasicInterpolation._interpolate_some] stands in its input:
    copying text, inside the name of a [%(name)s] reference, or just after
    the closing parenthesis, where an [s] is due. *)
Inductive scan_mode : Type :=
| Text
| Name (acc : string)
| Closed (name : string).

Section Interpolation.
Variables (option section rawval : string) (map : gmap string string).

(** The [while rest:] loop of [BasicInterpolation._interpolate_some],
    one character at a time: [%%] gives a percent sign, [%(name)s] the
    value of option [name], handed to [nested] when it holds a percent
    sign; anything else after a percent sign and any unfinished
    reference is a syntax error. *)
Fixpoint scan (nested : string -> result string) (mode : scan_mode)
    (rest : string) {struct rest} : result string :=
  match mode, rest with
  | Text, EmptyString => Ok EmptyString
  | Text, String c r =>
      if is_percent c then
        match r with
        | String d r' =>
            if is_percent d then rmap (String d) (scan nested Text r')
            else if Ascii.eqb d "("%char then scan nested (Name "") r'
            else Raise (InterpolationSyntaxError option section)
        | EmptyString => Raise (InterpolationSyntaxError option section)
        end
      else rmap (String c) (scan nested Text r)
  | Name acc, String c r =>
      if Ascii.eqb c ")"%char then
        if String.eqb acc "" then
          Raise (InterpolationSyntaxError option section)
        else scan nested (Closed acc) r
      else scan nested (Name (acc +:+ String c "")) r
  | Name _, EmptyString => Raise (InterpolationSyntaxError option section)
  | Closed name, String c r =>
      if Ascii.eqb c "s"%char then
        match map !! optionxform name with
        | None =>
            Raise (InterpolationMissingOptionError
                     option section rawval (optionxform name))
        | Some v =>
            rbind (if contains_percent v then nested v else Ok v)
              (fun v' => rmap (String.append v') (scan nested Text r))
        end
      else Raise (InterpolationSyntaxError option section)
  | Closed _, EmptyString => Raise (InterpolationSyntaxError option section)
  end.

(** [_interpolate_some], with [remaining] the levels of nesting still
    allowed: [depth = MAX_INTERPOLATION_DEPTH + 1 - remaining]. *)
Fixpoint _interpolate_some (remaining : nat) (rest : string)
    {struct remaining} : result string :=
  match remaining with
  | O => Raise (InterpolationDepthError option section rawval)
  | S remaining' => scan (_interpolate_some remaining') Text rest
  end.

(** [BasicInterpolation.before_get] *)
Definition before_get (value : string) : result string :=
  _interpolate_some MAX_INTERPOLATION_DEPTH value.
End Interpolation.

(** [parser.get(section, option)] *)
Definition get (parser : ConfigParser) (section option : string)
    : result string :=
  rbind (_unify_values parser section) (fun d =>
    let option := optionxform option in
    match d !! option with
    | None => Raise (NoOptionError option section)
    | Some value => before_get option section value d value
    end).

End configparser.

(** ** Messages, channels and stubs *)

(** Modelled from the spec: the generated message class [bgpinfo_pb2.values]
    is not under src/; the RPC contract gives the request the shape
    [{ time: integer }]. *)
Record values : Type := mkValues { time : Z }.

(** Modelled from the spec: [grpc]'s channel object is not under src/; a
    channel is an opaque handle bound to the target it was opened for. *)
Record Channel : Type := mkChannel { channel_target : string }.

(** Modelled from the spec: the generated class
    [bgpinfo_pb2_grpc.bgp_infoStub] is not under src/; a stub is a local proxy
    for the remote service, bound to a channel. *)
Record bgp_infoStub : Type := mkStub { stub_channel : Channel }.

(** ** The world and the interpreter state *)

Section Client.

(** The response type of the RPC contract and its [str], both fixed by the
    generated code. *)
Context {response : Type}.
Variable str_response : response -> string.

(** What the environment decides.
    - [__name__]: the name the module body runs under.
    - [open_file]: how a path opens and parses.
    - [unparsable]: the targets the transport cannot parse as a network
      address, with the details of the error each one gets.
    - [clock]: the reading of [time.time()], by the number of library
      calls the process has made so far.
    - [remote]: what one unary call of [add_latest] through a channel to
      the given target comes back with: a response, or the status code and
      details of an [RpcError]. *)
Record world : Type := mkWorld {
  __name__ : string;
  open_file : string -> configparser.file_state;
  unparsable : string -> option string;
  clock : nat -> spec_float;
  remote : string -> values -> response + Z * string
}.

(** The library calls the process makes, as they happen. *)
Inductive event : Type :=
| FileRead (filename : string)
| ConfigGet (section option : string)
| InsecureChannel (target : string)
| StubBound (target : string)
| ClockRead (t : spec_float)
| RpcCall (target : string) (request : values)
| Printed (text : string).

(** The interpreter's footprint: the line of [bgpinfo.py] being executed,
    the calls so far, oldest first, and standard output. *)
Record proc : Type := mkProc {
  lineno : nat;
  trace : list event;
  stdout : string
}.

Definition start : proc := {| lineno := 0; trace := []; stdout := "" |}.

(** Statements: they read the world, change the state and return or raise.
    A raise leaves the state as it was when the exception left. *)
Definition M (A : Type) : Type := world -> proc -> result A * proc.

Definition ret {A} (a : A) : M A := fun _ p => (Ok a, p).

Definition bind {A B} (c : M A) (k : A -> M B) : M B :=
  fun w p =>
    match c w p with
    | (Ok a, p') => k a w p'
    | (Raise e, p') => (Raise e, p')
    end.

Definition lift {A} (r : result A) : M A := fun _ p => (r, p).

Definition ask : M world := fun w p => (Ok w, p).

Definition emit (e : event) : M unit :=
  fun _ p =>
    (Ok tt, {| lineno := lineno p; trace := (trace p ++ [e])%list; stdout := stdout p |}).

Definition now : M nat := fun _ p => (Ok (List.length (trace p)), p).

Definition write (text : string) : M unit :=
  fun _ p =>
    (Ok tt, {| lineno := lineno p; trace := trace p; stdout := stdout p +:+ text |}).

(** The interpreter reaches line [n] and runs the statement there. *)
Definition line {A} (n : nat) (c : M A) : M A :=
  fun w p => c w {| lineno := n; trace := trace p; stdout := stdout p |}.

#[local] Instance M_ret : MRet M := @ret.
#[local] Instance M_bind : MBind M := fun A B k c => bind c k.

(** ** Library calls with effects *)

(** [config.read(filename)] on the parser object [config]. *)
Definition config_read (config : configparser.ConfigParser)
    (filename : string) : M configparser.ConfigParser :=
  w ← ask;
  emit (FileRead filename) ;;
  r ← lift (configparser.read config filename (open_file w filename));
  ret (fst r).

(** [config.get(section, option)] *)
Definition config_get (config : configparser.ConfigParser)
    (section option : string) : M string :=
  emit (ConfigGet section option) ;;
  lift (configparser.get config section option).

(** Modelled from the spec: [grpc.insecure_channel] is library code that is
    not under src/.  By section 4.2 of the specification, opening fails with
    a [ChannelError] when the target cannot be parsed as a network address
    and is lazy otherwise: the handle comes back without a connection
    having been tried. *)
Definition insecure_channel (target : string) : M Channel :=
  w ← ask;
  emit (InsecureChannel target) ;;
  match unparsable w target with
  | Some details => lift (Raise (InsecureChannelError details))
  | None => ret {| channel_target := target |}
  end.

(** Modelled from the spec: the constructor of the generated class
    [bgpinfo_pb2_grpc.bgp_infoStub] is not under src/; by section 4.4 it
    binds a proxy for the remote service to the channel. *)
Definition new_stub (channel : Channel) : M bgp_infoStub :=
  emit (StubBound (channel_target channel)) ;;
  ret {| stub_channel := channel |}.

(** [time.time()] *)
Definition time_time : M spec_float :=
  w ← ask;
  k ← now;
  emit (ClockRead (clock w k)) ;;
  ret (clock w k).

(** Modelled from the spec: the generated method [stub.add_latest] is not
    under src/; by section 4.4 it is one blocking unary call, which comes
    back with the response or fails with an [RpcError] carrying a status
    code and a message. *)
Definition add_latest (stub : bgp_infoStub) (request : values) : M response :=
  w ← ask;
  let target := channel_target (stub_channel stub) in
  emit (RpcCall target request) ;;
  match remote w target request with
  | inl r => ret r
  | inr (code, details) => lift (Raise (RpcError code details))
  end.

(** [print(x)] *)
Definition print (x : response) : M unit :=
  let text := str_response x +:+ String "010"%char "" in
  emit (Printed text) ;;
  write text.

(** ** The module body of [bgpinfo.py] *)

Definition bgpinfo : M unit :=
  config ← line 9 (ret configparser.new);
  config ← line 10 (config_read config "config.ini");
  server ← line 11 (v ← config_get config "grpc" "server";
                    ret (py_str v));
  port ← line 12 (v ← config_get config "grpc" "port";
                  ret (py_str v));
  grpcserver ← line 15 (lift (py_format "%s:%s" [server; port]));
  channel ← line 16 (insecure_channel grpcserver);
  stub ← line 17 (new_stub channel);
  w ← line 20 ask;
  if String.eqb (__name__ w) "__main__" then
    current_values ← line 21 (time ← line 22 (t ← time_time;
                                              lift (py_int t));
                              ret (mkValues time));
    result ← line 24 (add_latest stub current_values);
    line 25 (print result)
  else ret tt.

(** ** Running the module as a process *)

(** What is left when the interpreter stops: the exception that reached
    the top, if any, and the final state. *)
Record outcome : Type := mkOutcome {
  uncaught : option exn;
  final : proc
}.

Definition run (w : world) : outcome :=
  match bgpinfo w start with
  | (Ok _, p) => {| uncaught := None; final := p |}
  | (Raise e, p) => {| uncaught := Some e; final := p |}
  end.

(** The interpreter exits with status 1 on an uncaught exception, 0 when
    the module body ends. *)
Definition exit_status (o : outcome) : Z :=
  match uncaught o with
  | None => 0
  | Some _ => 1
  end.

Definition is_rpc (e : event) : bool :=
  match e with RpcCall _ _ => true | _ => false end.

Definition is_channel (e : event) : bool :=
  match e with InsecureChannel _ => true | _ => false end.

Definition is_print (e : event) : bool :=
  match e with Printed _ => true | _ => false end.

Definition is_clock (e : event) : bool :=
  match e with ClockRead _ => true | _ => false end.

(** The calls of one sort a run made, and how many they were. *)
Definition calls (f : event -> bool) (o : outcome) : list event :=
  List.filter f (trace (final o)).

Definition count (f : event -> bool) (o : outcome) : nat :=
  List.length (calls f o).

End Client.

Arguments world : clear implicits.

(** ** The shapes a run can take *)

Section Shapes.
Context {response : Type}.
Variable str_response : response -> string.

(** What [config.read("config.ini")] does to a fresh parser in a world. *)
Definition config_ini (w : world response)
    : result (configparser.ConfigParser * list string) :=
  configparser.read configparser.new "config.ini" (open_file w "config.ini").

Definition stopped (e : exn) (l : nat) (tr : list event) : outcome :=
  {| uncaught := Some e;
     final := {| lineno := l; trace := tr; stdout := "" |} |}.

Definition finished (l : nat) (tr : list event) (out : string) : outcome :=
  {| uncaught := None;
     final := {| lineno := l; trace := tr; stdout := out |} |}.

(** The calls of lines 10 to 12, and of lines 10 to 17. *)
Definition loading : list event :=
  [FileRead "config.ini"; ConfigGet "grpc" "server"; ConfigGet "grpc" "port"].

Definition setup (target : string) : list event :=
  (loading ++ [InsecureChannel target; StubBound target])%list.

(** The module body is one straight path with six places to raise and two
    places to end.  [run_shape w o] lists them, each with the condition on
    the world that selects it. *)
Variant run_shape (w : world response) : outcome -> Prop :=
| shape_read e :
    config_ini w = Raise e ->
    run_shape w (stopped e 10 [FileRead "config.ini"])
| shape_server cfg files e :
    config_ini w = Ok (cfg, files) ->
    configparser.get cfg "grpc" "server" = Raise e ->
    run_shape w (stopped e 11 [FileRead "config.ini"; ConfigGet "grpc" "server"])
| shape_port cfg files host e :
    config_ini w = Ok (cfg, files) ->
    configparser.get cfg "grpc" "server" = Ok host ->
    configparser.get cfg "grpc" "port" = Raise e ->
    run_shape w (stopped e 12 loading)
| shape_channel cfg files host port details :
    config_ini w = Ok (cfg, files) ->
    configparser.get cfg "grpc" "server" = Ok host ->
    configparser.get cfg "grpc" "port" = Ok port ->
    unparsable w (host +:+ ":" +:+ port) = Some details ->
    run_shape w (stopped (InsecureChannelError details) 16
                   (loading ++ [InsecureChannel (host +:+ ":" +:+ port)])%list)
| shape_import cfg files host port :
    config_ini w = Ok (cfg, files) ->
    configparser.get cfg "grpc" "server" = Ok host ->
    configparser.get cfg "grpc" "port" = Ok port ->
    unparsable w (host +:+ ":" +:+ port) = None ->
    __name__ w <> "__main__" ->
    run_shape w (finished 20 (setup (host +:+ ":" +:+ port)) "")
| shape_int cfg files host port e :
    config_ini w = Ok (cfg, files) ->
    configparser.get cfg "grpc" "server" = Ok host ->
    configparser.get cfg "grpc" "port" = Ok port ->
    unparsable w (host +:+ ":" +:+ port) = None ->
    __name__ w = "__main__" ->
    py_int (clock w 5) = Raise e ->
    run_shape w (stopped e 22
                   (setup (host +:+ ":" +:+ port) ++ [ClockRead (clock w 5)])%list)
| shape_rpc cfg files host port n code details :
    config_ini w = Ok (cfg, files) ->
    configparser.get cfg "grpc" "server" = Ok host ->
    configparser.get cfg "grpc" "port" = Ok port ->
    unparsable w (host +:+ ":" +:+ port) = None ->
    __name__ w = "__main__" ->
    py_int (clock w 5) = Ok n ->
    remote w (host +:+ ":" +:+ port) {| time := n |} = inr (code, details) ->
    run_shape w (stopped (RpcError code details) 24
                   (setup (host +:+ ":" +:+ port)
                    ++ [ClockRead (clock w 5);
                        RpcCall (host +:+ ":" +:+ port) {| time := n |}])%list)
| shape_done cfg files host port n r :
    config_ini w = Ok (cfg, files) ->
    configparser.get cfg "grpc" "server" = Ok host ->
    configparser.get cfg "grpc" "port" = Ok port ->
    unparsable w (host +:+ ":" +:+ port) = None ->
    __name__ w = "__main__" ->
    py_int (clock w 5) = Ok n ->
    remote w (host +:+ ":" +:+ port) {| time := n |} = inl r ->
    run_shape w (finished 25
                   (setup (host +:+ ":" +:+ port)
                    ++ [ClockRead (clock w 5);
                        RpcCall (host +:+ ":" +:+ port) {| time := n |};
                        Printed (str_response r +:+ String "010"%char "")])%list
                   (str_response r +:+ String "010"%char "")).

(** The same world under another module name. *)
Definition with_name (name : string) (w : world response) : world response :=
  {| __name__ := name;
     open_file := open_file w;
     unparsable := unparsable w;
     clock := clock w;
     remote := remote w |}.

(** A configuration source that reads without error but leaves
    [config.has_option("grpc", key)] false for a required key. *)
Definition lacks_required_key (w : world response) : Prop :=
  exists cfg files,
    config_ini w = Ok (cfg, files) /\
    (configparser.has_option cfg "grpc" "server" = false \/
     configparser.has_option cfg "grpc" "port" = false).

(** [int] keeps the integral part: the floor of a reading at or above
    zero, the ceiling of one below. *)
Definition truncate (q : Q) : Z :=
  if Qle_bool 0 q then Qfloor q else Qceiling q.

End Shapes.

(** ** Worlds of the specification's scenarios *)

(** A response type for the scenarios: the reply [{ ok: ... }]. *)
Record reply : Type := mkReply { ok : bool }.

Definition str_reply (r : reply) : string :=
  if ok r then "ok: true" else "ok: false".

Definition ini_complete : configparser.file_state :=
  configparser.Parsed
    {[ "grpc" := {[ "server" := "127.0.0.1"; "port" := "50051" ]} ]} ∅.

Definition ini_no_port : configparser.file_state :=
  configparser.Parsed {[ "grpc" := {[ "server" := "127.0.0.1" ]} ]} ∅.

(** 1762279200.5 seconds after the epoch, and a second and a half before it. *)
Definition clock_2025 : spec_float := S754_finite false 3524558401 (-1).

(** A clock that advances one second with every library call and shows
    [clock_2025] after five of them. *)
Definition ticking (k : nat) : spec_float :=
  S754_finite false (3524558389 + 2 * Pos.of_succ_nat k) (-1).

Definition only (path : string) (f : configparser.file_state) (p : string)
    : configparser.file_state :=
  if String.eqb p path then f else configparser.NoSuchFile.

Definition scenario_ok : world reply :=
  {| __name__ := "__main__";
     open_file := only "config.ini" ini_complete;
     unparsable := fun _ => None;
     clock := ticking;
     remote := fun _ _ => inl {| ok := true |} |}.

Definition scenario_no_port : world reply :=
  {| __name__ := "__main__";
     open_file := only "config.ini" ini_no_port;
     unparsable := fun _ => None;
     clock := ticking;
     remote := fun _ _ => inl {| ok := true |} |}.

Definition scenario_no_file : world reply :=
  {| __name__ := "__main__";
     open_file := fun _ => configparser.NoSuchFile;
     unparsable := fun _ => None;
     clock := ticking;
     remote := fun _ _ => inl {| ok := true |} |}.

Definition scenario_unreachable : world reply :=
  {| __name__ := "__main__";
     open_file := only "config.ini" ini_complete;
     unparsable := fun _ => None;
     clock := ticking;
     remote := fun _ _ => inr (14, "failed to connect to all addresses") |}.



(** The parser object after reading each of the two configuration files. *)
Definition config_complete : configparser.ConfigParser :=
  {| configparser._sections :=
       {[ "grpc" := {[ "server" := "127.0.0.1"; "port" := "50051" ]} ]};
     configparser._defaults := ∅ |}.

Definition config_no_port : configparser.ConfigParser :=
  {| configparser._sections := {[ "grpc" := {[ "server" := "127.0.0.1" ]} ]};
     configparser._defaults := ∅ |}.

(** ** Shapes of option values and further worlds *)

(** Whether a string holds a closing parenthesis, which ends the name of a
    [%(name)s] reference, and whether it holds a colon. *)
Fixpoint closes (s : string) : bool :=
  match s with
  | EmptyString => false
  | String c s' => Ascii.eqb c ")" || closes s'
  end.

Fixpoint has_colon (s : string) : bool :=
  match s with
  | EmptyString => false
  | String c s' => Ascii.eqb c ":" || has_colon s'
  end.

(** A world whose [config.ini] parses to the given sections and defaults,
    with a service that answers. *)
Definition configured (sections : gmap string (gmap string string))
    (defaults : gmap string string) : world reply :=
  {| __name__ := "__main__";
     open_file := only "config.ini" (configparser.Parsed sections defaults);
     unparsable := fun _ => None;
     clock := ticking;
     remote := fun _ _ => inl {| ok := true |} |}.

(** [server] in the section, [port] and another [server] under [DEFAULT]. *)
Definition grpc_with_server : gmap string string := {[ "server" := "127.0.0.1" ]}.
Definition defaults_with_both : gmap string string :=
  {[ "server" := "192.0.2.1"; "port" := "50051" ]}.
Definition scenario_defaults : world reply :=
  configured {[ "grpc" := grpc_with_server ]} defaults_with_both.

(** Both keys under [DEFAULT], no [grpc] section. *)
Definition scenario_no_section : world reply := configured ∅ defaults_with_both.

(** A link-local IPv6 address with its zone, bare and escaped. *)
Definition grpc_zone : gmap string string :=
  {[ "server" := "fe80::1%eth0"; "port" := "50051" ]}.
Definition grpc_zone_escaped : gmap string string :=
  {[ "server" := "fe80::1%%eth0"; "port" := "50051" ]}.
Definition scenario_zone : world reply := configured {[ "grpc" := grpc_zone ]} ∅.
Definition scenario_zone_escaped : world reply :=
  configured {[ "grpc" := grpc_zone_escaped ]} ∅.

(** [server] given by reference to [host], and by reference to itself. *)
Definition grpc_reference : gmap string string :=
  {[ "server" := "%(Host)s"; "port" := "50051" ]}.
Definition defaults_host : gmap string string := {[ "host" := "127.0.0.1" ]}.
Definition grpc_self : gmap string string :=
  {[ "server" := "%(SERVER)s"; "port" := "50051" ]}.
Definition scenario_reference : world reply :=
  configured {[ "grpc" := grpc_reference ]} defaults_host.
Definition scenario_self_reference : world reply :=
  configured {[ "grpc" := grpc_self ]} ∅.

(** The complete configuration among other files that do not parse. *)
Definition scenario_other_files : world reply :=
  {| __name__ := "__main__";
     open_file := fun p => if String.eqb p "config.ini" then ini_complete
                           else configparser.Malformed configparser.BadLine;
     unparsable := fun _ => None;
     clock := fun k => match k with 5%nat => clock_2025 | _ => S754_nan end;
     remote := fun _ _ => inl {| ok := true |} |}.

(** ** Facts about the built-ins *)

Lemma append_empty_r (s : string) : s +:+ "" = s.
Proof.
  induction s as [|c s IH]; [reflexivity|].
  change (String c (s +:+ "") = String c s). now f_equal.
Qed.

Lemma format_target (server port : string) :
  py_format "%s:%s" [server; port] = Ok (server +:+ ":" +:+ port).
Proof. cbn. unfold py_str. now rewrite append_empty_r. Qed.

Lemma length_append (s t : string) :
  String.length (s +:+ t) = (String.length s + String.length t)%nat.
Proof.
  induction s as [|c s IH]; [reflexivity|].
  change (S (String.length (s +:+ t)) = S (String.length s + String.length t)).
  now f_equal.
Qed.

Lemma magnitude_floor (m : positive) (e : Z) :
  Z.shiftl (Z.pos m) e = Qfloor (inject_Z (Z.pos m) * Qpower 2 e).
Proof.
  destruct (Z.le_gt_cases 0 e) as [He|He].
  - rewrite Z.shiftl_mul_pow2 by assumption.
    rewrite <- (Qfloor_Z (Z.pos m * 2 ^ e)).
    apply Qfloor_comp.
    rewrite inject_Z_mult, (Zpower_Qpower 2 e He). reflexivity.
  - rewrite Z.shiftl_div_pow2 by lia.
    rewrite Zdiv_Qdiv. apply Qfloor_comp.
    rewrite (Zpower_Qpower 2 (- e)) by lia.
    rewrite Qpower_opp. unfold Qdiv.
    rewrite Qinv_involutive. reflexivity.
Qed.

Lemma magnitude_positive (m : positive) (e : Z) :
  (0 < inject_Z (Z.pos m) * Qpower 2 e)%Q.
Proof.
  apply Qmult_lt_0_compat.
  - reflexivity.
  - apply Qpower_0_lt. reflexivity.
Qed.

(** [int] of a finite float is its value truncated. *)
Lemma py_int_truncates (t : spec_float) (n : Z) :
  py_int t = Ok n -> n = truncate (float_value t).
Proof.
  destruct t as [s|s| |s m e]; cbn; intros H; inversion H; subst; clear H.
  - reflexivity.
  - pose proof (magnitude_positive m e) as Hpos.
    unfold truncate. destruct s; cbn.
    + destruct (Qle_bool 0 _) eqn:Hle.
      * apply Qle_bool_iff in Hle.
        exfalso. apply (Qlt_irrefl 0).
        apply Qlt_le_trans with (1 := Hpos).
        apply (Qopp_le_compat 0) in Hle. 
        rewrite Qopp_involutive in Hle. exact Hle.
      * unfold Qceiling. f_equal.
        rewrite magnitude_floor. apply Qfloor_comp.
        now rewrite Qopp_involutive.
    + destruct (Qle_bool 0 _) eqn:Hle.
      * apply magnitude_floor.
      * exfalso. apply Qlt_le_weak, Qle_bool_iff in Hpos. congruence.
Qed.

Lemma py_int_finite (t : spec_float) :
  is_finite t = true <-> exists n, py_int t = Ok n.
Proof.
  destruct t; cbn; split; intros H; try reflexivity; try discriminate;
    try (eexists; reflexivity); destruct H as [n H]; discriminate.
Qed.

Lemma truncate_floor (q : Q) : (0 <= q)%Q -> truncate q = Qfloor q.
Proof. intros H. unfold truncate. apply Qle_bool_iff in H. now rewrite H. Qed.


(** ** Facts about [configparser] *)

Lemma rmap_raises {A B} (f : A -> B) (r : result A) (e : exn) :
  rmap f r = Raise e -> r = Raise e.
Proof. destruct r; cbn; congruence. Qed.

Section InterpolationFacts.
Variables (option section rawval : string) (map : gmap string string).

Let configuration (r : result string) : Prop :=
  forall e, r = Raise e -> kind_of e = ConfigurationError.

Lemma scan_raises_configuration (nested : string -> result string) :
  (forall v, configuration (nested v)) ->
  forall rest mode,
    configuration (configparser.scan option section rawval map nested mode rest).
Proof.
  intros Hnested. unfold configuration in *.
  fix IH 1. intros rest mode e.
  destruct rest as [|c r]; destruct mode as [|acc|name]; cbn;
    try (intros [= <-]; reflexivity); try discriminate.
  - destruct (is_percent c).
    + destruct r as [|d r']; [intros [= <-]; reflexivity|].
      destruct (is_percent d); [intros H; apply rmap_raises in H; eauto|].
      destruct (Ascii.eqb d "("); [eauto|intros [= <-]; reflexivity].
    + intros H; apply rmap_raises in H; eauto.
  - destruct (Ascii.eqb c ")"); [|eauto].
    destruct (String.eqb acc ""); [intros [= <-]; reflexivity|eauto].
  - destruct (Ascii.eqb c "s"); [|intros [= <-]; reflexivity].
    destruct (map !! configparser.optionxform name) as [v|];
      [|intros [= <-]; reflexivity].
    destruct (configparser.contains_percent v).
    + destruct (nested v) eqn:Hv; cbn.
      * intros H; apply rmap_raises in H; eauto.
      * intros [= <-]. eauto.
    + cbn. intros H; apply rmap_raises in H; eauto.
Qed.

Lemma interpolate_raises_configuration (remaining : nat) (rest : string) :
  configuration
    (configparser._interpolate_some option section rawval map remaining rest).
Proof.
  revert rest. induction remaining as [|n IHn]; intros rest; cbn.
  - intros e [= <-]. reflexivity.
  - now apply scan_raises_configuration.
Qed.
End InterpolationFacts.

(** Whatever [get] raises is a configuration error. *)
Lemma get_raises_configuration (cfg : configparser.ConfigParser)
    (section option : string) (e : exn) :
  configparser.get cfg section option = Raise e ->
  kind_of e = ConfigurationError.
Proof.
  unfold configparser.get, configparser._unify_values, configparser.before_get.
  destruct (configparser._sections cfg !! section) as [d|]; cbn [rbind].
  - destruct (_ !! _); [apply interpolate_raises_configuration|].
    now intros [= <-].
  - destruct (String.eqb section _); cbn [rbind]; [|now intros [= <-]].
    destruct (_ !! _); [apply interpolate_raises_configuration|].
    now intros [= <-].
Qed.

(** An option [has_option] does not see is one [get] cannot return. *)
Lemma get_without_option (cfg : configparser.ConfigParser)
    (section option : string) :
  String.eqb section "" || String.eqb section configparser.DEFAULTSECT = false ->
  configparser.has_option cfg section option = false ->
  configparser.get cfg section option = Raise (NoSectionError section) \/
  configparser.get cfg section option
    = Raise (NoOptionError (configparser.optionxform option) section).
Proof.
  intros Hs. unfold configparser.has_option, configparser.get,
    configparser._unify_values.
  rewrite Hs. apply orb_false_elim in Hs as [_ Hs]. rewrite Hs.
  destruct (configparser._sections cfg !! section) as [d|]; cbn [rbind];
    [|now left].
  intros H. apply orb_false_elim in H as [Hd Hdef].
  apply bool_decide_eq_false in Hd, Hdef.
  rewrite <- eq_None_not_Some in Hd, Hdef.
  right.
  assert (Hnone : (d ∪ configparser._defaults cfg)
                    !! configparser.optionxform option = None)
    by now apply lookup_union_None.
  now rewrite Hnone.
Qed.

Lemma read_error_is_configuration (source : string) (e : configparser.read_error) :
  kind_of (configparser.exn_of_read_error source e) = ConfigurationError.
Proof. now destruct e. Qed.

Lemma get_from_new (option : string) :
  configparser.get configparser.new "grpc" option = Raise (NoSectionError "grpc").
Proof. reflexivity. Qed.

(** ** More facts about the built-ins and [configparser] *)


Lemma has_colon_append (s t : string) : has_colon (s +:+ String ":" t) = true.
Proof.
  induction s as [|c s IH]; [reflexivity|].
  change (String c s +:+ String ":" t) with (String c (s +:+ String ":" t)).
  cbn. rewrite IH. apply orb_true_r.
Qed.

Lemma colon_split (h p h' p' : string) :
  has_colon p = false ->
  has_colon p' = false ->
  h +:+ String ":" p = h' +:+ String ":" p' ->
  h = h' /\ p = p'.
Proof.
  intros Hp Hp'. revert h'. induction h as [|c h IH]; intros [|c' h'] Heq.
  - change (String ":" p = String ":" p') in Heq. injection Heq as ->. auto.
  - change (String ":" p = String c' (h' +:+ String ":" p')) in Heq.
    injection Heq as _ Heq. rewrite Heq, has_colon_append in Hp. discriminate.
  - change (String c (h +:+ String ":" p) = String ":" p') in Heq.
    injection Heq as _ Heq. rewrite <- Heq, has_colon_append in Hp'.
    discriminate.
  - change (String c (h +:+ String ":" p) = String c' (h' +:+ String ":" p'))
      in Heq.
    injection Heq as -> Heq. destruct (IH _ Heq) as [-> ->]. auto.
Qed.

(** X13.  The target gives host and port back: when neither port holds a
    colon, two pairs that format to the same target are the same pair.  With
    colons in the port the target is ambiguous, as the example after it
    shows. *)
Theorem target_determines_host_and_port (h p h' p' : string) :
  has_colon p = false ->
  has_colon p' = false ->
  py_format "%s:%s" [py_str h; py_str p] = py_format "%s:%s" [py_str h'; py_str p'] ->
  h = h' /\ p = p'.
Proof.
  intros Hp Hp'. unfold py_str. rewrite !format_target. intros [= Heq].
  now apply colon_split.
Qed.

Example target_is_ambiguous_with_colons :
  py_format "%s:%s" ["::1"; "50051"] = py_format "%s:%s" [":"; "1:50051"].
Proof. reflexivity. Qed.

(** How the interpolation loop treats literal text, a bare percent sign, a
    doubled one and a reference. *)
Section ScanFacts.
Variables (option section rawval : string) (map : gmap string string).
Variable nested : string -> result string.

Abbreviation scan := (configparser.scan option section rawval map nested).

Lemma scan_verbatim (v : string) :
  configparser.contains_percent v = false ->
  scan configparser.Text v = Ok v.
Proof.
  induction v as [|c v IH]; cbn; [reflexivity|].
  intros H. apply orb_false_elim in H as [Hc Hv].
  rewrite Hc, (IH Hv). reflexivity.
Qed.

Lemma scan_bare_percent (pre rest : string) :
  configparser.contains_percent pre = false ->
  match rest with
  | EmptyString => True
  | String c _ => is_percent c = false /\ Ascii.eqb c "(" = false
  end ->
  scan configparser.Text (pre +:+ String "%" rest)
  = Raise (InterpolationSyntaxError option section).
Proof.
  intros Hpre Hrest. induction pre as [|c pre IH].
  - change ("" +:+ String "%" rest) with (String "%" rest). cbn.
    destruct rest as [|d r]; [reflexivity|].
    destruct Hrest as [-> ->]. reflexivity.
  - change (String c pre +:+ String "%" rest)
      with (String c (pre +:+ String "%" rest)).
    cbn in Hpre. apply orb_false_elim in Hpre as [Hc Hp].
    cbn. rewrite Hc, (IH Hp). reflexivity.
Qed.

Lemma scan_double_percent (pre rest : string) :
  configparser.contains_percent pre = false ->
  configparser.contains_percent rest = false ->
  scan configparser.Text (pre +:+ String "%" (String "%" rest))
  = Ok (pre +:+ String "%" rest).
Proof.
  intros Hpre Hrest. induction pre as [|c pre IH].
  - change ("" +:+ String "%" (String "%" rest)) with (String "%" (String "%" rest)).
    cbn. rewrite (scan_verbatim rest Hrest). reflexivity.
  - change (String c pre +:+ String "%" (String "%" rest))
      with (String c (pre +:+ String "%" (String "%" rest))).
    cbn in Hpre. apply orb_false_elim in Hpre as [Hc Hp].
    cbn. rewrite Hc, (IH Hp). reflexivity.
Qed.

Lemma append_assoc_char (acc : string) (c : ascii) (name : string) :
  (acc +:+ String c "") +:+ name = acc +:+ String c name.
Proof.
  induction acc as [|a acc IH]; [reflexivity|].
  change (String a ((acc +:+ String c "") +:+ name)
          = String a (acc +:+ String c name)).
  now f_equal.
Qed.

Lemma append_nonempty (acc name : string) :
  name <> "" -> String.eqb (acc +:+ name) "" = false.
Proof.
  intros H. destruct acc; [|reflexivity].
  destruct name; [contradiction|reflexivity].
Qed.

Lemma scan_name (acc name rest : string) :
  closes name = false ->
  acc +:+ name <> "" ->
  scan (configparser.Name acc) (name +:+ String ")" rest)
  = scan (configparser.Closed (acc +:+ name)) rest.
Proof.
  revert acc. induction name as [|c name IH]; intros acc Hc Hne.
  - change ("" +:+ String ")" rest) with (String ")" rest).
    rewrite append_empty_r in *. cbn.
    destruct (String.eqb_spec acc ""); [contradiction|]. 
    destruct rest; reflexivity.
  - change (String c name +:+ String ")" rest)
      with (String c (name +:+ String ")" rest)).
    cbn in Hc. apply orb_false_elim in Hc as [Hc Hn].
    cbn. rewrite Hc.
    rewrite IH; rewrite ?append_assoc_char; auto.
Qed.

Lemma scan_reference (pre name rest v : string) :
  configparser.contains_percent pre = false ->
  closes name = false ->
  name <> "" ->
  map !! configparser.optionxform name = Some v ->
  scan configparser.Text
    (pre +:+ String "%" (String "(" (name +:+ String ")" (String "s" rest))))
  = rmap (String.append pre)
      (rbind (if configparser.contains_percent v then nested v else Ok v)
         (fun v' => rmap (String.append v') (scan configparser.Text rest))).
Proof.
  intros Hpre Hc Hne Hv. induction pre as [|c pre IH].
  - change ("" +:+ ?x) with x. cbn.
    rewrite scan_name by assumption.
    change ("" +:+ name) with name. cbn. rewrite Hv.
    destruct (if configparser.contains_percent v then nested v else Ok v); cbn;
      [|reflexivity].
    destruct (scan configparser.Text rest); reflexivity.
  - change (String c pre +:+ ?x) with (String c (pre +:+ x)).
    cbn in Hpre. apply orb_false_elim in Hpre as [Hp Hpre].
    cbn. rewrite Hp, (IH Hpre).
    destruct (if configparser.contains_percent v then nested v else Ok v); cbn;
      [|reflexivity].
    destruct (scan configparser.Text rest); reflexivity.
Qed.
End ScanFacts.

(** [get] on an option that is there: the raw value goes through
    interpolation. *)
Lemma get_interpolates (cfg : configparser.ConfigParser)
    (section option : string) (d : gmap string string) (value : string) :
  configparser._sections cfg !! section = Some d ->
  (d ∪ configparser._defaults cfg) !! configparser.optionxform option = Some value ->
  configparser.get cfg section option
  = configparser.scan (configparser.optionxform option) section value
      (d ∪ configparser._defaults cfg)
      (configparser._interpolate_some (configparser.optionxform option)
         section value (d ∪ configparser._defaults cfg) 9)
      configparser.Text value.
Proof.
  intros Hs Hv. unfold configparser.get, configparser._unify_values.
  rewrite Hs. cbn [rbind]. rewrite Hv. reflexivity.
Qed.

(** Reading into a fresh parser leaves exactly what the file holds. *)
Lemma read_fresh (filename : string)
    (sections : gmap string (gmap string string)) (defaults : gmap string string) :
  configparser.read configparser.new filename
    (configparser.Parsed sections defaults)
  = Ok ({| configparser._sections := sections;
           configparser._defaults := defaults |}, [filename]).
Proof.
  unfold configparser.read, configparser.new. cbn. do 3 f_equal.
  - apply map_eq. intros i. rewrite lookup_union_with, lookup_empty.
    now destruct (sections !! i).
  - apply (right_id_L ∅ (∪)).
Qed.

(** ** Every run has one of the shapes *)

Section Runs.
Context {response : Type}.
Variable str_response : response -> string.
Implicit Types (w : world response) (o : outcome).

Ltac run_unfold :=
  unfold run, bgpinfo, config_read, config_get, insecure_channel, new_stub,
    time_time, add_latest, print, now, write, line, ask, emit, lift,
    mbind, M_bind, bind, mret, M_ret, ret.

Lemma run_inv w : run_shape str_response w (run str_response w).
Proof.
  run_unfold; cbn. fold (config_ini w).
  destruct (config_ini w) as [[cfg files]|e] eqn:Hread; cbn;
    [|now apply shape_read].
  destruct (configparser.get cfg "grpc" "server") as [host|e] eqn:Hs; cbn;
    [|now apply (shape_server _ _ cfg files)].
  destruct (configparser.get cfg "grpc" "port") as [port|e] eqn:Hp; cbn;
    [|now apply (shape_port _ _ cfg files host)].
  unfold py_str. rewrite append_empty_r.
  change (String ":" port) with (":" +:+ port).
  destruct (unparsable w (host +:+ ":" +:+ port)) as [details|] eqn:Hu; cbn;
    [now apply (shape_channel _ _ cfg files)|].
  destruct (String.eqb_spec (__name__ w) "__main__") as [Hn|Hn]; cbn;
    [|now apply (shape_import _ _ cfg files)].
  destruct (py_int (clock w 5)) as [n|e] eqn:Hi; cbn;
    [|now apply (shape_int _ _ cfg files)].
  destruct (remote w (host +:+ ":" +:+ port) {| time := n |})
    as [r|[code details]] eqn:Hr; cbn.
  - now apply (shape_done _ _ cfg files host port n r).
  - now apply (shape_rpc _ _ cfg files host port n).
Qed.

(** Two facts about one world agree. *)
Ltac same :=
  repeat match goal with
    | H1 : ?x = _, H2 : ?x = _ |- _ =>
        rewrite H1 in H2; inversion H2; subst; clear H2
    | H1 : ?x = ?y, H2 : ?x <> ?y |- _ => destruct (H2 H1)
    end.

Ltac shape :=
  unfold stopped, finished, setup, loading, calls, count, exit_status in *;
  cbn in *.

Lemma config_ini_skips w :
  open_file w "config.ini" = configparser.NoSuchFile \/
  open_file w "config.ini" = configparser.NotReadable ->
  config_ini w = Ok (configparser.new, []).
Proof. unfold config_ini. now intros [-> | ->]. Qed.

(** C2.  Whatever host and port the configuration yields, the one target
    handed to [grpc.insecure_channel] is the host, one colon, the port, and
    nothing else: it is what ["%s:%s" % (server, port)] evaluates to on the
    two strings after [str], and its length is the two lengths plus one. *)
Theorem channel_target_is_host_colon_port w cfg files host port :
  config_ini w = Ok (cfg, files) ->
  configparser.get cfg "grpc" "server" = Ok host ->
  configparser.get cfg "grpc" "port" = Ok port ->
  py_format "%s:%s" [py_str host; py_str port] = Ok (host +:+ ":" +:+ port) /\
  calls is_channel (run str_response w)
    = [InsecureChannel (host +:+ ":" +:+ port)] /\
  String.length (host +:+ ":" +:+ port)
    = (String.length host + 1 + String.length port)%nat.
Proof.
  intros Hread Hs Hp. split; [apply format_target|]. split.
  - destruct (run_inv w); same; reflexivity.
  - rewrite !length_append. cbn. lia.
Qed.

(** C3.  When [config.ini] is missing, unreadable or malformed, or reads
    but lacks the [server] or the [port] key of section [grpc], the run ends
    in an uncaught configuration error raised before line 16: no channel was
    asked for, and the exit status is 1. *)
Theorem incomplete_configuration_is_fatal w :
  open_file w "config.ini" = configparser.NoSuchFile \/
  open_file w "config.ini" = configparser.NotReadable \/
  (exists e, open_file w "config.ini" = configparser.Malformed e) \/
  lacks_required_key w ->
  exists e,
    uncaught (run str_response w) = Some e /\
    kind_of e = ConfigurationError /\
    (lineno (final (run str_response w)) < 16)%nat /\
    calls is_channel (run str_response w) = [] /\
    exit_status (run str_response w) = 1.
Proof.
  intros H.
  assert (Hcfg : (exists e, config_ini w = Raise e /\
                            kind_of e = ConfigurationError) \/
                 (exists cfg files, config_ini w = Ok (cfg, files) /\
                    ((exists e, configparser.get cfg "grpc" "server" = Raise e) \/
                     (exists e, configparser.get cfg "grpc" "port" = Raise e)))).
  { destruct H as [H|[H|[[e H]|(cfg & files & Hread & Hlack)]]].
    - right. exists configparser.new, []. split; [apply config_ini_skips; auto|].
      left. eexists. apply get_from_new.
    - right. exists configparser.new, []. split; [apply config_ini_skips; auto|].
      left. eexists. apply get_from_new.
    - left. unfold config_ini. rewrite H. cbn. eexists. split; [reflexivity|].
      apply read_error_is_configuration.
    - right. exists cfg, files. split; [assumption|].
      destruct Hlack as [Hl|Hl]; [left|right];
        destruct (get_without_option cfg "grpc" _ eq_refl Hl) as [->| ->];
        eexists; reflexivity. }
  clear H.
  destruct (run_inv w) as [e He|cfg files e Hr Hs|cfg files host e Hr Hs Hp| | | | | ].
  - exists e. shape. destruct Hcfg as [(e' & H1 & H2)|(? & ? & H1 & _)]; same.
    repeat split; auto; lia.
  - exists e. shape. repeat split; eauto using get_raises_configuration; lia.
  - exists e. shape. repeat split; eauto using get_raises_configuration; lia.
  - exfalso. destruct Hcfg as [(? & ? & _)|(? & ? & ? & [[? ?]|[? ?]])]; same.
  - exfalso. destruct Hcfg as [(? & ? & _)|(? & ? & ? & [[? ?]|[? ?]])]; same.
  - exfalso. destruct Hcfg as [(? & ? & _)|(? & ? & ? & [[? ?]|[? ?]])]; same.
  - exfalso. destruct Hcfg as [(? & ? & _)|(? & ? & ? & [[? ?]|[? ?]])]; same.
  - exfalso. destruct Hcfg as [(? & ? & _)|(? & ? & ? & [[? ?]|[? ?]])]; same.
Qed.

(** C9.  A missing [config.ini] does not fail [config.read]: the read
    returns with nothing read and the parser still empty.  The run stops one
    line later, at the first [config.get], with [NoSectionError] for section
    [grpc], having made just those two calls. *)
Theorem missing_file_surfaces_at_first_get w :
  open_file w "config.ini" = configparser.NoSuchFile ->
  config_ini w = Ok (configparser.new, []) /\
  run str_response w = stopped (NoSectionError "grpc") 11
            [FileRead "config.ini"; ConfigGet "grpc" "server"].
Proof.
  intros H. assert (Hread := config_ini_skips w (or_introl H)).
  split; [assumption|].
  pose proof (get_from_new "server") as Hs.
  destruct (run_inv w); same; reflexivity.
Qed.

Ltac pick H :=
  shape;
  repeat (destruct H as [H|H];
          [first [discriminate H | inversion H; subst; clear H]|]);
  try contradiction.


(** C10.  For a finite clock reading [t] at or above zero, the request's
    [time] is the floor of [t]: [int] gives it, the request sent carries it,
    it does not exceed [t], it is within one second of [t], and it is not
    negative. *)
Theorem request_time_is_floor_of_clock w t :
  In (ClockRead t) (trace (final (run str_response w))) ->
  is_finite t = true ->
  (0 <= float_value t)%Q ->
  py_int t = Ok (Qfloor (float_value t)) /\
  (exists target,
      In (RpcCall target {| time := Qfloor (float_value t) |})
         (trace (final (run str_response w)))) /\
  (inject_Z (Qfloor (float_value t)) <= float_value t)%Q /\
  (float_value t < inject_Z (Qfloor (float_value t) + 1))%Q /\
  0 <= Qfloor (float_value t).
Proof.
  intros Hin Hfin Hpos. apply py_int_finite in Hfin as [k Hk].
  assert (Hk' := py_int_truncates _ _ Hk).
  rewrite truncate_floor in Hk' by assumption. subst k.
  split; [assumption|].
  split; [|split; [apply Qfloor_le|split; [apply Qlt_floor|]]].
  - destruct (run_inv w); pick Hin; same; eexists; cbn; auto 10.
  - rewrite <- (Qfloor_Z 0). now apply Qfloor_resp_le.
Qed.

(** C4.  Nothing is caught on the way up.  What [config.read] or a
    [config.get] that was called raises, what opening the channel raises
    and what the remote call raises is, unchanged, the exception the
    interpreter ends with.  A run that ends with an exception exits with
    status 1 and has written nothing to standard output; a run of the main
    program that exits with status 0 has printed the response, once. *)
Theorem errors_reach_the_top w :
  (forall e, config_ini w = Raise e -> uncaught (run str_response w) = Some e) /\
  (forall cfg files option e,
      config_ini w = Ok (cfg, files) ->
      In (ConfigGet "grpc" option) (trace (final (run str_response w))) ->
      configparser.get cfg "grpc" option = Raise e ->
      uncaught (run str_response w) = Some e) /\
  (forall target details,
      In (InsecureChannel target) (trace (final (run str_response w))) ->
      unparsable w target = Some details ->
      uncaught (run str_response w) = Some (InsecureChannelError details)) /\
  (forall target req code details,
      In (RpcCall target req) (trace (final (run str_response w))) ->
      remote w target req = inr (code, details) ->
      uncaught (run str_response w) = Some (RpcError code details)) /\
  (forall e,
      uncaught (run str_response w) = Some e ->
      exit_status (run str_response w) = 1 /\
      stdout (final (run str_response w)) = "" /\
      calls is_print (run str_response w) = []) /\
  (__name__ w = "__main__" ->
   exit_status (run str_response w) = 0 ->
   exists r,
     stdout (final (run str_response w)) = str_response r +:+ String "010" "" /\
     calls is_print (run str_response w)
       = [Printed (str_response r +:+ String "010" "")]).
Proof.
  split; [|split; [|split; [|split; [|split]]]].
  - intros e He. destruct (run_inv w); same; reflexivity.
  - intros cfg files option e Hr Hin He.
    destruct (run_inv w); pick Hin; same; reflexivity.
  - intros target details Hin Hu.
    destruct (run_inv w); pick Hin; same; reflexivity.
  - intros target req code details Hin Hr.
    destruct (run_inv w); pick Hin; same; reflexivity.
  - intros e. destruct (run_inv w); shape; intros [= <-] || discriminate;
      repeat split.
  - intros Hn. destruct (run_inv w); shape; same; try discriminate.
    intros _. eexists. split; reflexivity.
Qed.

(** C5, as amended.  A run makes at most one remote call: exactly one when
    it reaches the call on line 24, none when it stops before.  A call that
    fails is the only call of the run and the last thing the run does. *)
Theorem at_most_one_rpc_call w :
  (count is_rpc (run str_response w) <= 1)%nat /\
  (count is_rpc (run str_response w) = 1%nat
   <-> (24 <= lineno (final (run str_response w)))%nat) /\
  (forall target req code details,
      In (RpcCall target req) (trace (final (run str_response w))) ->
      remote w target req = inr (code, details) ->
      calls is_rpc (run str_response w) = [RpcCall target req] /\
      List.last (trace (final (run str_response w))) (FileRead "")
        = RpcCall target req).
Proof.
  split; [|split].
  - destruct (run_inv w); shape; lia.
  - destruct (run_inv w); shape; lia.
  - intros target req code details Hin Hr.
    destruct (run_inv w); pick Hin; same; split; reflexivity.
Qed.


(** C7.  When the remote call returns a response, the run ends without an
    exception, standard output holds the text of that very response and a
    newline, [print] was called once, with that text, and it was the last
    call of the run. *)
Theorem response_is_printed_once w target req r :
  In (RpcCall target req) (trace (final (run str_response w))) ->
  remote w target req = inl r ->
  uncaught (run str_response w) = None /\
  stdout (final (run str_response w)) = str_response r +:+ String "010" "" /\
  calls is_print (run str_response w)
    = [Printed (str_response r +:+ String "010" "")] /\
  List.last (trace (final (run str_response w))) (FileRead "")
    = Printed (str_response r +:+ String "010" "").
Proof.
  intros Hin Hr. destruct (run_inv w); pick Hin; same. repeat split.
Qed.

(** A call is made through a channel that was opened and bound before. *)
Lemma channel_before_call w pre target req post :
  trace (final (run str_response w)) = (pre ++ RpcCall target req :: post)%list ->
  In (InsecureChannel target) pre /\
  In (StubBound target) pre /\
  unparsable w target = None.
Proof.
  destruct (run_inv w); shape; intros Heq;
    repeat (destruct pre as [|? pre]; cbn in Heq;
            [first [discriminate Heq | inversion Heq; subst; clear Heq]
            |first [discriminate Heq | injection Heq as <- Heq]]);
    cbn; auto 10.
Qed.

(** C8.  Under any name other than [__main__] the module body reads no
    clock, makes no remote call and prints nothing.  What it does is the
    beginning of what the main program does: when it fails the main program
    fails in the same way, and when it completes it has made the
    configuration reads, opened the channel and bound the stub.  In the main program
    every remote call comes after the channel to its target was opened and
    the stub bound. *)
Theorem import_sets_up_without_calling w name :
  name <> "__main__" ->
  let imported := run str_response (with_name name w) in
  let executed := run str_response (with_name "__main__" w) in
  (calls is_clock imported = [] /\
   calls is_rpc imported = [] /\
   calls is_print imported = [] /\
   stdout (final imported) = "") /\
  (exists rest,
      trace (final executed) = (trace (final imported) ++ rest)%list) /\
  (forall e, uncaught imported = Some e -> executed = imported) /\
  (uncaught imported = None ->
   exists target, trace (final imported) = setup target) /\
  (forall pre target req post,
      trace (final executed) = (pre ++ RpcCall target req :: post)%list ->
      In (InsecureChannel target) pre /\ In (StubBound target) pre).
Proof.
  intros Hname imported executed. subst imported executed.
  split; [|split; [|split; [|split]]].
  - destruct (run_inv (with_name name w)); shape; same; auto.
  - destruct (run_inv (with_name name w));
      destruct (run_inv (with_name "__main__" w));
      unfold config_ini in *; shape; same;
      try congruence; eexists; reflexivity.
  - intros e.
    destruct (run_inv (with_name name w));
      destruct (run_inv (with_name "__main__" w));
      unfold config_ini in *; shape; same;
      try congruence; try discriminate; reflexivity.
  - destruct (run_inv (with_name name w)); shape; same; try discriminate.
    intros _. eexists. reflexivity.
  - intros pre target req post Heq.
    destruct (channel_before_call _ _ _ _ _ Heq) as (? & ? & _). auto.
Qed.
(** What line 10 leaves in the parser when [config.ini] parses. *)
Lemma config_ini_parsed w sections defaults :
  open_file w "config.ini" = configparser.Parsed sections defaults ->
  config_ini w
  = Ok ({| configparser._sections := sections;
           configparser._defaults := defaults |}, ["config.ini"]).
Proof. intros H. unfold config_ini. rewrite H. apply read_fresh. Qed.

Lemma get_literal (sections : gmap string (gmap string string))
    (defaults d : gmap string string) (option value : string) :
  configparser.optionxform option = option ->
  sections !! "grpc" = Some d ->
  (d ∪ defaults) !! option = Some value ->
  configparser.contains_percent value = false ->
  configparser.get {| configparser._sections := sections;
                      configparser._defaults := defaults |} "grpc" option
  = Ok value.
Proof.
  intros Hx Hs Hv Hp.
  rewrite (get_interpolates _ _ _ d value) by (cbn; rewrite ?Hx; assumption).
  now apply scan_verbatim.
Qed.


(** X2.  The target comes from the file as it is.  The value of [server]
    and of [port] is the section's own or, when the section has none, the one
    under [DEFAULT]; free of percent signs, the two are used unchanged and
    unchecked (empty strings included): the one channel asked for, and any
    remote call made, is for [server:port]. *)
Theorem target_from_file w sections defaults d server port :
  open_file w "config.ini" = configparser.Parsed sections defaults ->
  sections !! "grpc" = Some d ->
  (d ∪ defaults) !! "server" = Some server ->
  (d ∪ defaults) !! "port" = Some port ->
  configparser.contains_percent server = false ->
  configparser.contains_percent port = false ->
  calls is_channel (run str_response w)
  = [InsecureChannel (server +:+ ":" +:+ port)] /\
  (forall target req,
      In (RpcCall target req) (trace (final (run str_response w))) ->
      target = server +:+ ":" +:+ port).
Proof.
  intros Hfile Hsec Hs Hp Hsp Hpp.
  pose proof (config_ini_parsed w _ _ Hfile) as Hread.
  pose proof (get_literal sections defaults d "server" server eq_refl Hsec Hs Hsp) as Hgs.
  pose proof (get_literal sections defaults d "port" port eq_refl Hsec Hp Hpp) as Hgp.
  split.
  - destruct (run_inv w); same; reflexivity.
  - intros target req Hin.
    destruct (run_inv w); pick Hin; same; reflexivity.
Qed.

(** X3.  Without a [grpc] section the run stops at the first [config.get]
    with [NoSectionError], whatever [DEFAULT] holds: keys under [DEFAULT]
    alone do not configure the client. *)
Theorem missing_section_is_fatal w sections defaults :
  open_file w "config.ini" = configparser.Parsed sections defaults ->
  sections !! "grpc" = None ->
  run str_response w
  = stopped (NoSectionError "grpc") 11
      [FileRead "config.ini"; ConfigGet "grpc" "server"].
Proof.
  intros Hfile Hsec.
  pose proof (config_ini_parsed w _ _ Hfile) as Hread.
  assert (Hg : configparser.get
                 {| configparser._sections := sections;
                    configparser._defaults := defaults |} "grpc" "server"
               = Raise (NoSectionError "grpc")).
  { unfold configparser.get, configparser._unify_values. cbn. now rewrite Hsec. }
  destruct (run_inv w); same; reflexivity.
Qed.

(** X4.  The missing key is named, [server] first.  With a [grpc] section
    but no [server], the run stops on line 11 with [NoOptionError] for
    [server], whether or not [port] is there; with [server] in order and no
    [port], it stops on line 12 with [NoOptionError] for [port]. *)
Theorem missing_key_is_named w sections defaults d :
  open_file w "config.ini" = configparser.Parsed sections defaults ->
  sections !! "grpc" = Some d ->
  ((d ∪ defaults) !! "server" = None ->
   run str_response w
   = stopped (NoOptionError "server" "grpc") 11
       [FileRead "config.ini"; ConfigGet "grpc" "server"]) /\
  (forall server,
      (d ∪ defaults) !! "server" = Some server ->
      configparser.contains_percent server = false ->
      (d ∪ defaults) !! "port" = None ->
      run str_response w = stopped (NoOptionError "port" "grpc") 12 loading).
Proof.
  intros Hfile Hsec.
  pose proof (config_ini_parsed w _ _ Hfile) as Hread.
  assert (Hmiss : forall option,
             configparser.optionxform option = option ->
             (d ∪ defaults) !! option = None ->
             configparser.get
               {| configparser._sections := sections;
                  configparser._defaults := defaults |} "grpc" option
             = Raise (NoOptionError option "grpc")).
  { intros option Hx Hnone.
    unfold configparser.get, configparser._unify_values. cbn.
    rewrite Hsec. cbn. now rewrite Hx, Hnone. }
  split.
  - intros Hnone. pose proof (Hmiss "server" eq_refl Hnone) as Hg.
    destruct (run_inv w); same; reflexivity.
  - intros server Hs Hsp Hnone.
    pose proof (get_literal sections defaults d "server" server eq_refl Hsec Hs Hsp) as Hgs.
    pose proof (Hmiss "port" eq_refl Hnone) as Hg.
    destruct (run_inv w); same; reflexivity.
Qed.

(** X5.  A bare percent sign is fatal.  A [server] or [port] value with a
    percent sign that is followed neither by another percent sign nor by an
    opening parenthesis (an address with a zone, say) stops the run with
    [InterpolationSyntaxError] on the line that reads the option. *)
Theorem bare_percent_is_fatal w sections defaults d pre rest :
  open_file w "config.ini" = configparser.Parsed sections defaults ->
  sections !! "grpc" = Some d ->
  configparser.contains_percent pre = false ->
  match rest with
  | EmptyString => True
  | String c _ => is_percent c = false /\ Ascii.eqb c "(" = false
  end ->
  ((d ∪ defaults) !! "server" = Some (pre +:+ String "%" rest) ->
   run str_response w
   = stopped (InterpolationSyntaxError "server" "grpc") 11
       [FileRead "config.ini"; ConfigGet "grpc" "server"]) /\
  (forall server,
      (d ∪ defaults) !! "server" = Some server ->
      configparser.contains_percent server = false ->
      (d ∪ defaults) !! "port" = Some (pre +:+ String "%" rest) ->
      run str_response w
      = stopped (InterpolationSyntaxError "port" "grpc") 12 loading).
Proof.
  intros Hfile Hsec Hpre Hrest.
  pose proof (config_ini_parsed w _ _ Hfile) as Hread.
  assert (Hbad : forall option,
             configparser.optionxform option = option ->
             (d ∪ defaults) !! option = Some (pre +:+ String "%" rest) ->
             configparser.get
               {| configparser._sections := sections;
                  configparser._defaults := defaults |} "grpc" option
             = Raise (InterpolationSyntaxError option "grpc")).
  { intros option Hx Hv.
    rewrite (get_interpolates _ _ _ d (pre +:+ String "%" rest))
      by (cbn; rewrite ?Hx; assumption).
    rewrite Hx. now apply scan_bare_percent. }
  split.
  - intros Hv. pose proof (Hbad "server" eq_refl Hv) as Hg.
    destruct (run_inv w); same; reflexivity.
  - intros server Hs Hsp Hv.
    pose proof (get_literal sections defaults d "server" server eq_refl Hsec Hs Hsp) as Hgs.
    pose proof (Hbad "port" eq_refl Hv) as Hg.
    destruct (run_inv w); same; reflexivity.
Qed.

(** X6.  A doubled percent sign is one percent sign: the target is built
    from the [server] value with [%%] replaced by [%]. *)
Theorem doubled_percent_is_one w sections defaults d pre rest port :
  open_file w "config.ini" = configparser.Parsed sections defaults ->
  sections !! "grpc" = Some d ->
  (d ∪ defaults) !! "server" = Some (pre +:+ String "%" (String "%" rest)) ->
  configparser.contains_percent pre = false ->
  configparser.contains_percent rest = false ->
  (d ∪ defaults) !! "port" = Some port ->
  configparser.contains_percent port = false ->
  calls is_channel (run str_response w)
  = [InsecureChannel ((pre +:+ String "%" rest) +:+ ":" +:+ port)].
Proof.
  intros Hfile Hsec Hs Hpre Hrest Hp Hpp.
  pose proof (config_ini_parsed w _ _ Hfile) as Hread.
  assert (Hgs : configparser.get
                  {| configparser._sections := sections;
                     configparser._defaults := defaults |} "grpc" "server"
                = Ok (pre +:+ String "%" rest)).
  { rewrite (get_interpolates _ _ _ d (pre +:+ String "%" (String "%" rest)))
      by assumption.
    now apply scan_double_percent. }
  pose proof (get_literal sections defaults d "port" port eq_refl Hsec Hp Hpp) as Hgp.
  destruct (run_inv w); same; reflexivity.
Qed.



(** X10.  One straight line.  The calls of any run are a beginning, never
    empty, of one fixed sequence: read the file, get [server], get [port],
    open the channel, bind the stub, read the clock, call, print; so each
    happens at most once and in that order. *)
Theorem calls_follow_the_source w :
  exists target request text rest,
    (trace (final (run str_response w)) ++ rest)%list
    = [FileRead "config.ini"; ConfigGet "grpc" "server";
       ConfigGet "grpc" "port"; InsecureChannel target; StubBound target;
       ClockRead (clock w 5); RpcCall target request; Printed text] /\
    trace (final (run str_response w)) <> [].
Proof.
  destruct (run_inv w)
    as [| | |? ? host port|? ? host port|? ? host port|? ? host port n
        |? ? host port n r]; shape.
  - exists "", {| time := 0 |}, "". eexists. split; [reflexivity|discriminate].
  - exists "", {| time := 0 |}, "". eexists. split; [reflexivity|discriminate].
  - exists "", {| time := 0 |}, "". eexists. split; [reflexivity|discriminate].
  - exists (host +:+ ":" +:+ port), {| time := 0 |}, "". eexists.
    split; [reflexivity|discriminate].
  - exists (host +:+ ":" +:+ port), {| time := 0 |}, "". eexists.
    split; [reflexivity|discriminate].
  - exists (host +:+ ":" +:+ port), {| time := 0 |}, "". eexists.
    split; [reflexivity|discriminate].
  - exists (host +:+ ":" +:+ port), {| time := n |}, "". eexists.
    split; [reflexivity|discriminate].
  - exists (host +:+ ":" +:+ port), {| time := n |},
      (str_response r +:+ String "010" ""), [].
    split; [reflexivity|discriminate].
Qed.


(** X12.  Nothing else matters.  Two worlds that agree on the module name,
    on [config.ini], on which targets parse, on the clock reading taken
    before the call and on the service give the same run: no other file and
    no other moment of the clock has any influence. *)
Theorem run_reads_config_ini_only w w' :
  __name__ w = __name__ w' ->
  open_file w "config.ini" = open_file w' "config.ini" ->
  (forall target, unparsable w target = unparsable w' target) ->
  clock w 5 = clock w' 5 ->
  (forall target req, remote w target req = remote w' target req) ->
  run str_response w = run str_response w'.
Proof.
  intros Hn Hf Hu Hc Hr.
  destruct (run_inv w); destruct (run_inv w');
    unfold config_ini in *; rewrite <- ?Hn, <- ?Hf, <- ?Hc in *; same;
    rewrite <- ?Hu, <- ?Hr in *; same; try congruence; reflexivity.
Qed.

(** X7.  A reference is resolved.  A [server] value holding [%(name)s]
    between literal text gets the value of option [name], looked up in lower
    case in the section and then under [DEFAULT], in its place, and the
    target is built from the result. *)
Theorem reference_is_resolved w sections defaults d pre name rest v port :
  open_file w "config.ini" = configparser.Parsed sections defaults ->
  sections !! "grpc" = Some d ->
  (d ∪ defaults) !! "server"
    = Some (pre +:+ String "%" (String "(" (name +:+ String ")" (String "s" rest)))) ->
  configparser.contains_percent pre = false ->
  closes name = false ->
  name <> "" ->
  configparser.contains_percent rest = false ->
  (d ∪ defaults) !! configparser.optionxform name = Some v ->
  configparser.contains_percent v = false ->
  (d ∪ defaults) !! "port" = Some port ->
  configparser.contains_percent port = false ->
  calls is_channel (run str_response w)
  = [InsecureChannel ((pre +:+ v +:+ rest) +:+ ":" +:+ port)].
Proof.
  intros Hfile Hsec Hs Hpre Hc Hne Hrest Hv Hvp Hp Hpp.
  pose proof (config_ini_parsed w _ _ Hfile) as Hread.
  assert (Hgs : configparser.get
                  {| configparser._sections := sections;
                     configparser._defaults := defaults |} "grpc" "server"
                = Ok (pre +:+ v +:+ rest)).
  { rewrite (get_interpolates _ _ _ d
               (pre +:+ String "%" (String "(" (name +:+ String ")" (String "s" rest)))))
      by assumption.
    rewrite scan_reference with (v := v) by assumption.
    rewrite Hvp, (scan_verbatim _ _ _ _ _ rest Hrest). reflexivity. }
  pose proof (get_literal sections defaults d "port" port eq_refl Hsec Hp Hpp) as Hgp.
  destruct (run_inv w); same; reflexivity.
Qed.

Lemma self_reference_runs_out (option section : string)
    (map : gmap string string) (name : string) (remaining : nat) :
  closes name = false ->
  name <> "" ->
  map !! configparser.optionxform name
    = Some (String "%" (String "(" (name +:+ String ")" (String "s" "")))) ->
  configparser._interpolate_some option section
    (String "%" (String "(" (name +:+ String ")" (String "s" ""))))
    map remaining
    (String "%" (String "(" (name +:+ String ")" (String "s" ""))))
  = Raise (InterpolationDepthError option section
             (String "%" (String "(" (name +:+ String ")" (String "s" ""))))).
Proof.
  intros Hc Hne Hv. induction remaining as [|n IH]; [reflexivity|].
  cbn [configparser._interpolate_some].
  pose proof (scan_reference option section
                (String "%" (String "(" (name +:+ String ")" (String "s" ""))))
                map
                (configparser._interpolate_some option section
                   (String "%" (String "(" (name +:+ String ")" (String "s" ""))))
                   map n)
                "" name "" _ eq_refl Hc Hne Hv) as H.
  change ("" +:+ ?x) with x in H. rewrite H.
  cbn [configparser.contains_percent is_percent Ascii.eqb Bool.eqb orb].
  cbn. rewrite IH. reflexivity.
Qed.

(** X8.  A value that refers to itself does not loop: a [server] value
    that is a reference to [server], in any spelling of the name, stops the
    run on line 11 with [InterpolationDepthError]. *)
Theorem self_reference_is_fatal w sections defaults d name :
  open_file w "config.ini" = configparser.Parsed sections defaults ->
  sections !! "grpc" = Some d ->
  closes name = false ->
  name <> "" ->
  configparser.optionxform name = "server" ->
  (d ∪ defaults) !! "server"
    = Some (String "%" (String "(" (name +:+ String ")" (String "s" "")))) ->
  run str_response w
  = stopped (InterpolationDepthError "server" "grpc"
               (String "%" (String "(" (name +:+ String ")" (String "s" "")))))
      11 [FileRead "config.ini"; ConfigGet "grpc" "server"].
Proof.
  intros Hfile Hsec Hc Hne Hx Hs.
  pose proof (config_ini_parsed w _ _ Hfile) as Hread.
  assert (Hg : configparser.get
                 {| configparser._sections := sections;
                    configparser._defaults := defaults |} "grpc" "server"
               = Raise (InterpolationDepthError "server" "grpc"
                          (String "%" (String "(" (name +:+ String ")" (String "s" "")))))).
  { unfold configparser.get, configparser._unify_values. cbn [rbind].
    cbn [configparser._sections configparser._defaults]. rewrite Hsec.
    cbn [rbind]. change (configparser.optionxform "server") with "server".
    rewrite Hs. unfold configparser.before_get.
    apply self_reference_runs_out; [assumption|assumption|].
    rewrite Hx. exact Hs. }
  destruct (run_inv w); same; reflexivity.
Qed.
End Runs.

(** ** The scenarios, run *)

(** The three scenarios of the specification: a complete configuration and a
    service that answers, a configuration without [port], and a host that
    cannot be reached. *)
Example scenario_ok_runs :
  run str_reply scenario_ok
  = finished 25
      (setup "127.0.0.1:50051"
       ++ [ClockRead clock_2025;
           RpcCall "127.0.0.1:50051" {| time := 1762279200 |};
           Printed (String.append "ok: true" (String "010" ""))])%list
      (String.append "ok: true" (String "010" "")).
Proof. vm_compute. reflexivity. Qed.

Example scenario_no_port_runs :
  run str_reply scenario_no_port = stopped (NoOptionError "port" "grpc") 12 loading.
Proof. vm_compute. reflexivity. Qed.

Example scenario_unreachable_runs :
  run str_reply scenario_unreachable
  = stopped (RpcError 14 "failed to connect to all addresses") 24
      (setup "127.0.0.1:50051"
       ++ [ClockRead clock_2025;
           RpcCall "127.0.0.1:50051" {| time := 1762279200 |}])%list.
Proof. vm_compute. reflexivity. Qed.

(** Each theorem above that has a premise, applied in one of the scenarios. *)

Lemma channel_target_scenario :
  config_ini scenario_ok = Ok (config_complete, ["config.ini"]) /\
  calls is_channel (run str_reply scenario_ok)
    = [InsecureChannel "127.0.0.1:50051"].
Proof.
  split; [vm_compute; reflexivity|].
  apply (channel_target_is_host_colon_port str_reply scenario_ok
           config_complete ["config.ini"] "127.0.0.1" "50051");
    vm_compute; reflexivity.
Defined.

Lemma missing_port_scenario :
  lacks_required_key scenario_no_port /\
  exists e,
    uncaught (run str_reply scenario_no_port) = Some e /\
    kind_of e = ConfigurationError /\
    (lineno (final (run str_reply scenario_no_port)) < 16)%nat /\
    calls is_channel (run str_reply scenario_no_port) = [] /\
    exit_status (run str_reply scenario_no_port) = 1.
Proof.
  assert (H : lacks_required_key scenario_no_port).
  { exists config_no_port, ["config.ini"].
    split; [vm_compute; reflexivity|right; vm_compute; reflexivity]. }
  split; [exact H|].
  apply (incomplete_configuration_is_fatal str_reply scenario_no_port).
  right; right; right. exact H.
Defined.

Lemma missing_file_scenario :
  run str_reply scenario_no_file
    = stopped (NoSectionError "grpc") 11
        [FileRead "config.ini"; ConfigGet "grpc" "server"].
Proof.
  apply (missing_file_surfaces_at_first_get str_reply scenario_no_file).
  reflexivity.
Defined.



Lemma request_floor_scenario :
  py_int clock_2025 = Ok (Qfloor (float_value clock_2025)) /\
  Qfloor (float_value clock_2025) = 1762279200.
Proof.
  split; [|vm_compute; reflexivity].
  apply (request_time_is_floor_of_clock str_reply scenario_ok clock_2025).
  - vm_compute. tauto.
  - reflexivity.
  - vm_compute. discriminate.
Defined.

Lemma unreachable_scenario :
  uncaught (run str_reply scenario_unreachable)
    = Some (RpcError 14 "failed to connect to all addresses") /\
  exit_status (run str_reply scenario_unreachable) = 1 /\
  stdout (final (run str_reply scenario_unreachable)) = "" /\
  calls is_print (run str_reply scenario_unreachable) = [].
Proof.
  destruct (errors_reach_the_top str_reply scenario_unreachable)
    as (_ & _ & _ & Hrpc & Hexit & _).
  assert (H : uncaught (run str_reply scenario_unreachable)
              = Some (RpcError 14 "failed to connect to all addresses")).
  { apply (Hrpc "127.0.0.1:50051" {| time := 1762279200 |}).
    - vm_compute. tauto.
    - reflexivity. }
  split; [exact H|]. exact (Hexit _ H).
Defined.

(** Without a configuration file the main program makes no remote call at
    all: it is not exactly one call in every run. *)
Lemma no_rpc_without_configuration :
  __name__ scenario_no_file = "__main__" /\
  calls is_rpc (run str_reply scenario_no_file) = [] /\
  count is_rpc (run str_reply scenario_no_file) <> 1%nat.
Proof.
  split; [reflexivity|]. split; [vm_compute; reflexivity|].
  vm_compute. discriminate.
Qed.

Lemma failed_call_scenario :
  calls is_rpc (run str_reply scenario_unreachable)
    = [RpcCall "127.0.0.1:50051" {| time := 1762279200 |}] /\
  List.last (trace (final (run str_reply scenario_unreachable))) (FileRead "")
    = RpcCall "127.0.0.1:50051" {| time := 1762279200 |}.
Proof.
  destruct (at_most_one_rpc_call str_reply scenario_unreachable)
    as (_ & _ & Hretry).
  apply (Hretry "127.0.0.1:50051" {| time := 1762279200 |} 14
           "failed to connect to all addresses").
  - vm_compute. tauto.
  - reflexivity.
Defined.


Lemma reported_scenario :
  uncaught (run str_reply scenario_ok) = None /\
  stdout (final (run str_reply scenario_ok))
    = str_reply {| ok := true |} +:+ String "010" "" /\
  calls is_print (run str_reply scenario_ok)
    = [Printed (str_reply {| ok := true |} +:+ String "010" "")] /\
  List.last (trace (final (run str_reply scenario_ok))) (FileRead "")
    = Printed (str_reply {| ok := true |} +:+ String "010" "").
Proof.
  apply (response_is_printed_once str_reply scenario_ok "127.0.0.1:50051"
           {| time := 1762279200 |} {| ok := true |}).
  - vm_compute. tauto.
  - reflexivity.
Defined.

Lemma import_scenario :
  trace (final (run str_reply (with_name "bgpinfo" scenario_ok)))
    = setup "127.0.0.1:50051" /\
  calls is_rpc (run str_reply (with_name "bgpinfo" scenario_ok)) = [] /\
  stdout (final (run str_reply (with_name "bgpinfo" scenario_ok))) = "".
Proof.
  assert (Hname : "bgpinfo" <> "__main__") by discriminate.
  destruct (import_sets_up_without_calling str_reply scenario_ok "bgpinfo" Hname)
    as ((_ & Hrpc & _ & Hout) & _ & _ & _ & _).
  split; [vm_compute; reflexivity|]. split; [exact Hrpc|exact Hout].
Defined.

(** The further theorems, applied in their scenarios. *)


Lemma defaults_scenario :
  calls is_channel (run str_reply scenario_defaults)
  = [InsecureChannel "127.0.0.1:50051"].
Proof.
  apply (target_from_file str_reply scenario_defaults
           {[ "grpc" := grpc_with_server ]} defaults_with_both grpc_with_server
           "127.0.0.1" "50051");
    vm_compute; reflexivity.
Defined.

Lemma no_section_scenario :
  run str_reply scenario_no_section
  = stopped (NoSectionError "grpc") 11
      [FileRead "config.ini"; ConfigGet "grpc" "server"].
Proof.
  apply (missing_section_is_fatal str_reply scenario_no_section ∅ defaults_with_both);
    vm_compute; reflexivity.
Defined.

Lemma no_port_named_scenario :
  run str_reply scenario_no_port = stopped (NoOptionError "port" "grpc") 12 loading.
Proof.
  destruct (missing_key_is_named str_reply scenario_no_port
              {[ "grpc" := {[ "server" := "127.0.0.1" ]} ]} ∅
              {[ "server" := "127.0.0.1" ]}) as [_ Hport];
    [vm_compute; reflexivity..|].
  apply (Hport "127.0.0.1"); vm_compute; reflexivity.
Defined.

Lemma zone_scenario :
  run str_reply scenario_zone
  = stopped (InterpolationSyntaxError "server" "grpc") 11
      [FileRead "config.ini"; ConfigGet "grpc" "server"].
Proof.
  destruct (bare_percent_is_fatal str_reply scenario_zone
              {[ "grpc" := grpc_zone ]} ∅ grpc_zone "fe80::1" "eth0")
    as [Hserver _];
    [vm_compute; reflexivity | vm_compute; reflexivity | reflexivity
    | split; reflexivity |].
  apply Hserver. vm_compute. reflexivity.
Defined.

Lemma zone_escaped_scenario :
  calls is_channel (run str_reply scenario_zone_escaped)
  = [InsecureChannel "fe80::1%eth0:50051"].
Proof.
  apply (doubled_percent_is_one str_reply scenario_zone_escaped
           {[ "grpc" := grpc_zone_escaped ]} ∅ grpc_zone_escaped
           "fe80::1" "eth0" "50051");
    vm_compute; reflexivity.
Defined.

Lemma reference_scenario :
  calls is_channel (run str_reply scenario_reference)
  = [InsecureChannel "127.0.0.1:50051"].
Proof.
  apply (reference_is_resolved str_reply scenario_reference
           {[ "grpc" := grpc_reference ]} defaults_host grpc_reference
           "" "Host" "" "127.0.0.1" "50051");
    try (vm_compute; reflexivity). discriminate.
Defined.

Lemma self_reference_scenario :
  run str_reply scenario_self_reference
  = stopped (InterpolationDepthError "server" "grpc" "%(SERVER)s") 11
      [FileRead "config.ini"; ConfigGet "grpc" "server"].
Proof.
  apply (self_reference_is_fatal str_reply scenario_self_reference
           {[ "grpc" := grpc_self ]} ∅ grpc_self "SERVER");
    try (vm_compute; reflexivity). discriminate.
Defined.



Lemma other_files_scenario :
  run str_reply scenario_ok = run str_reply scenario_other_files.
Proof.
  apply (run_reads_config_ini_only str_reply scenario_ok scenario_other_files);
    reflexivity.
Defined.

Lemma target_split_scenario :
  "127.0.0.1" = "127.0.0.1" /\ "50051" = "50051".
Proof.
  apply (target_determines_host_and_port "127.0.0.1" "50051" "127.0.0.1" "50051");
    reflexivity.
Defined.
